(** * System Sentinel: the dashboard client ([dashboard.js]) and the
    alert dispatcher of the monitoring pipeline.

    The React component [SystemMonitor] is embedded as follows:
    - JSON / JavaScript values are [JVal];
    - the body of an async handler ([fetchData], [handleRetryWithAdmin])
      is a computation in a writer-and-exception monad [M]: it emits the
      React state updates and the [fetch] calls it performs, in order,
      and ends in a value or a thrown JavaScript exception;
    - the network is an oracle [Net] giving the outcome of [fetch(url)];
    - rendering is a pure function of the component state;
    - [useEffect] / [setInterval] / [clearInterval] run on a millisecond
      event loop. *)

From Stdlib Require Import ZArith List String Ascii Bool Lia.
From Stdlib Require Import Sorting.Permutation.
Import ListNotations.
Open Scope string_scope.
Set Warnings "-register-all,-abstract-large-number".

(* ------------------------------------------------------------------ *)
(** ** JavaScript values *)

(** Values produced by [JSON.parse] (objects as their own property list,
    in insertion order), plus [undefined].  JSON numbers are modelled by
    their integer values. *)
Inductive JVal : Type :=
| JUndef
| JNull
| JBool (b : bool)
| JNum (n : Z)
| JStr (s : string)
| JArr (xs : list JVal)
| JObj (kvs : list (string * JVal)).

(** JavaScript exceptions that the handlers can observe. *)
Inductive Exn : Type :=
| Error_ (msg : string)        (** [new Error(msg)] *)
| TypeError_ (msg : string)    (** engine [TypeError] *)
| SyntaxError_ (msg : string). (** [JSON.parse] failure *)

(** [err.message] *)
Definition message (e : Exn) : string :=
  match e with
  | Error_ m | TypeError_ m | SyntaxError_ m => m
  end.

(** JavaScript truthiness of a value (JSON cannot produce NaN). *)
Definition truthy (v : JVal) : bool :=
  match v with
  | JUndef | JNull => false
  | JBool b => b
  | JNum n => negb (Z.eqb n 0)
  | JStr s => negb (String.eqb s "")
  | JArr _ | JObj _ => true
  end.

Fixpoint assoc_lookup (k : string) (kvs : list (string * JVal)) : option JVal :=
  match kvs with
  | [] => None
  | (k', v) :: rest => if String.eqb k k' then Some v else assoc_lookup k rest
  end.

(** Property read [v.k]: reading a property of [null] or [undefined]
    throws a [TypeError] (V8 wording); arrays and strings have a
    [length]; any other missing property is [undefined]. *)
Definition js_get (v : JVal) (k : string) : Exn + JVal :=
  match v with
  | JNull => inl (TypeError_ ("Cannot read properties of null (reading '" ++ k ++ "')"))
  | JUndef => inl (TypeError_ ("Cannot read properties of undefined (reading '" ++ k ++ "')"))
  | JObj kvs => inr (match assoc_lookup k kvs with Some x => x | None => JUndef end)
  | JArr xs => inr (if String.eqb k "length" then JNum (Z.of_nat (List.length xs)) else JUndef)
  | JStr s => inr (if String.eqb k "length" then JNum (Z.of_nat (String.length s)) else JUndef)
  | JBool _ | JNum _ => inr JUndef
  end.

(** Optional chaining [v?.k]. *)
Definition js_get_opt (v : JVal) (k : string) : Exn + JVal :=
  match v with
  | JNull | JUndef => inr JUndef
  | _ => js_get v k
  end.

(* ------------------------------------------------------------------ *)
(** ** Numbers and strings *)

Definition digit_char (d : nat) : ascii := ascii_of_nat (48 + d).

Fixpoint pos_to_dec_aux (fuel : nat) (n : N) (acc : string) : string :=
  match fuel with
  | O => acc
  | S f =>
      let acc' := String (digit_char (N.to_nat (N.modulo n 10))) acc in
      if N.ltb n 10 then acc' else pos_to_dec_aux f (N.div n 10) acc'
  end.

(** Decimal rendering of an integer, as [String(n)] does. *)
Definition Z_to_dec (z : Z) : string :=
  match z with
  | Z0 => "0"
  | Zpos p => pos_to_dec_aux (Pos.size_nat p) (Npos p) ""
  | Zneg p => "-" ++ pos_to_dec_aux (Pos.size_nat p) (Npos p) ""
  end.

Fixpoint parse_digits (s : string) (acc : Z) : option Z :=
  match s with
  | EmptyString => Some acc
  | String c rest =>
      let d := (Z.of_nat (nat_of_ascii c) - 48)%Z in
      if (0 <=? d)%Z && (d <=? 9)%Z then parse_digits rest (acc * 10 + d)%Z else None
  end.

(** [Number(s)] on integer numerals ([None] is NaN); surrounding
    whitespace and fractional or exponent numerals are not modelled. *)
Definition str_to_number (s : string) : option Z :=
  match s with
  | EmptyString => Some 0%Z
  | String "-" (String _ _ as rest) => option_map Z.opp (parse_digits rest 0)
  | _ => parse_digits s 0
  end.

(** [ToNumber] ([None] is NaN). *)
Definition to_number (v : JVal) : option Z :=
  match v with
  | JUndef => None
  | JNull => Some 0%Z
  | JBool b => Some (if b then 1 else 0)%Z
  | JNum n => Some n
  | JStr s => str_to_number s
  | JArr [] => Some 0%Z
  | JArr [JNum n] => Some n
  | JArr [JStr s] => str_to_number s
  | JArr _ | JObj _ => None
  end.

(** [v > 0] *)
Definition js_gt0 (v : JVal) : bool :=
  match to_number v with
  | Some n => (0 <? n)%Z
  | None => false
  end.

Fixpoint starts_with (pre s : string) : bool :=
  match pre, s with
  | EmptyString, _ => true
  | String c pre', String d s' => Ascii.eqb c d && starts_with pre' s'
  | String _ _, EmptyString => false
  end.

(** [s.includes(sub)] *)
Fixpoint includes (s sub : string) : bool :=
  starts_with sub s ||
  match s with
  | EmptyString => false
  | String _ s' => includes s' sub
  end.

(** [String(v)] *)
Fixpoint js_String (v : JVal) : string :=
  match v with
  | JUndef => "undefined"
  | JNull => "null"
  | JBool b => if b then "true" else "false"
  | JNum n => Z_to_dec n
  | JStr s => s
  | JArr xs =>
      (* Array.prototype.join(','), null and undefined elements as '' *)
      let fix join (xs : list JVal) : string :=
        match xs with
        | [] => ""
        | [x] => match x with JUndef | JNull => "" | _ => js_String x end
        | x :: rest =>
            match x with JUndef | JNull => "" | _ => js_String x end ++ "," ++ join rest
        end in
      join xs
  | JObj _ => "[object Object]"
  end.

(** The text React renders for a JSX child [{v}]: strings and numbers
    as text, [null], [undefined] and booleans as nothing, arrays child by
    child; a plain object is refused with an [Error]. *)
Fixpoint render_child (v : JVal) : Exn + string :=
  match v with
  | JStr s => inr s
  | JNum n => inr (Z_to_dec n)
  | JBool _ | JNull | JUndef => inr ""
  | JArr xs =>
      let fix go (xs : list JVal) : Exn + string :=
        match xs with
        | [] => inr ""
        | x :: rest =>
            match render_child x, go rest with
            | inr a, inr b => inr (a ++ b)
            | inl e, _ | _, inl e => inl e
            end
        end in
      go xs
  | JObj _ => inl (Error_ "Objects are not valid as a React child")
  end.

(** Canonical array-index keys ("0", "1", ..., below 2^32 - 1). *)
Definition array_index (k : string) : option Z :=
  match k with
  | EmptyString => None
  | String "0" EmptyString => Some 0%Z
  | String "0" _ => None
  | _ => match parse_digits k 0 with
         | Some n => if (n <? 4294967295)%Z then Some n else None
         | None => None
         end
  end.

Definition index_key (kv : string * JVal) : Z :=
  match array_index (fst kv) with Some n => n | None => 0%Z end.

Fixpoint insert_by_index (kv : string * JVal) (l : list (string * JVal))
  : list (string * JVal) :=
  match l with
  | [] => [kv]
  | kv' :: rest =>
      if (index_key kv <=? index_key kv')%Z then kv :: l
      else kv' :: insert_by_index kv rest
  end.

Definition sort_by_index (l : list (string * JVal)) : list (string * JVal) :=
  fold_right insert_by_index [] l.

Definition is_index_entry (kv : string * JVal) : bool :=
  match array_index (fst kv) with Some _ => true | None => false end.

(** [Object.entries(v)]: an object's own properties, integer-index keys
    first in ascending order, then the others in insertion order. *)
Definition object_entries (v : JVal) : list (string * JVal) :=
  match v with
  | JObj kvs =>
      app (sort_by_index (filter is_index_entry kvs))
            (filter (fun kv => negb (is_index_entry kv)) kvs)
  | JArr xs => combine (map (fun i => Z_to_dec (Z.of_nat i)) (seq 0 (List.length xs))) xs
  | JStr s => map (fun i => (Z_to_dec (Z.of_nat i),
                             JStr (String (match String.get i s with
                                           | Some c => c | None => " "%char end) "")))
                  (seq 0 (String.length s))
  | _ => []
  end.

(* ------------------------------------------------------------------ *)
(** ** Async handlers: a writer-and-exception monad *)

(** The observable steps of a handler: React state setters of
    [SystemMonitor] and calls of [fetch]. *)
Inductive Action : Type :=
| SetLoading (b : bool)
| SetData (v : JVal)
| SetError (e : option string)
| Fetch (url : string).

Definition M (A : Type) : Type := (list Action * (Exn + A))%type.

Definition ret {A} (a : A) : M A := ([], inr a).

Definition bind {A B} (m : M A) (f : A -> M B) : M B :=
  match m with
  | (w, inl e) => (w, inl e)
  | (w, inr a) => let (w', r) := f a in (app w w', r)
  end.

Definition throw {A} (e : Exn) : M A := ([], inl e).

Definition lift {A} (r : Exn + A) : M A := ([], r).

Definition emit (a : Action) : M unit := ([a], inr tt).

(** [try { m } catch (err) { h(err) }] *)
Definition try_catch {A} (m : M A) (h : Exn -> M A) : M A :=
  match m with
  | (w, inl e) => let (w', r) := h e in (app w w', r)
  | (w, inr a) => (w, inr a)
  end.

(** [try { m } finally { f }] *)
Definition try_finally {A} (m : M A) (f : M unit) : M A :=
  let (w, r) := m in
  let (w', r') := f in
  (app w w', match r' with inl e => inl e | inr _ => r end).

Notation "x <- c1 ;; c2" := (bind c1 (fun x => c2))
  (at level 61, c1 at next level, right associativity).
Notation "c1 ;; c2" := (bind c1 (fun _ => c2))
  (at level 61, right associativity).

(** Actions and result of a computation. *)
Definition actions {A} (m : M A) : list Action := fst m.
Definition outcome {A} (m : M A) : Exn + A := snd m.

(* ------------------------------------------------------------------ *)
(** ** The network *)

(** A response body: text that [JSON.parse] accepts, given by the value
    it parses to, or text it rejects (for instance an HTML error page). *)
Inductive Body : Type :=
| BodyJson (v : JVal)
| BodyText (raw : string).

Record Response : Type := mkResponse { status : Z; body : Body }.

(** [response.ok] *)
Definition resp_ok (r : Response) : bool := (200 <=? status r)%Z && (status r <=? 299)%Z.

(** What [fetch(url)] settles to: a response, or a rejection (network
    failure) with the engine's [TypeError] message. *)
Inductive FetchOutcome : Type :=
| Resp (r : Response)
| NetErr (msg : string).

Definition Net : Type := string -> FetchOutcome.

(** Message of the [SyntaxError] [JSON.parse] raises on rejected text
    (V8 wording). *)
Definition json_syntax_message (raw : string) : string :=
  match raw with
  | EmptyString => "Unexpected end of JSON input"
  | String c _ => "Unexpected token '" ++ String c "" ++ "' in JSON"
  end.

(** [await fetch(url)] *)
Definition fetch_ (net : Net) (url : string) : M Response :=
  emit (Fetch url) ;;
  match net url with
  | Resp r => ret r
  | NetErr msg => throw (TypeError_ msg)
  end.

(** [await response.json()] *)
Definition response_json (r : Response) : M JVal :=
  match body r with
  | BodyJson v => ret v
  | BodyText raw => throw (SyntaxError_ (json_syntax_message raw))
  end.

(* ------------------------------------------------------------------ *)
(** ** [SystemMonitor] *)

Definition admin_msg : string := "Administrative privileges required".
Definition fetch_failed_msg : string := "Failed to fetch system data".
Definition escalation_failed_msg : string := "Failed to obtain administrative access".

(** [const fetchData = async () => { ... }] (lines 36-59). *)
Definition fetchData (net : Net) : M unit :=
  try_finally
    (try_catch
       (emit (SetLoading true) ;;
        response <- fetch_ net "/api/current" ;;
        (if negb (resp_ok response) then
           cond <- (if (status response =? 401)%Z then ret true
                    else if (status response =? 500)%Z then
                      j <- response_json response ;;
                      sa <- lift (js_get j "suggest_admin") ;;
                      ret (truthy sa)
                    else ret false) ;;
           if cond then throw (Error_ admin_msg)
           else throw (Error_ fetch_failed_msg)
         else ret tt) ;;
        result <- response_json response ;;
        emit (SetData result) ;;
        emit (SetError None))
       (fun err => emit (SetError (Some (message err)))))
    (emit (SetLoading false)).

(** [const handleRetryWithAdmin = async () => { ... }] (lines 61-70).
    The inner [fetchData()] is not awaited; it never rejects, so its
    steps are simply those of the call. *)
Definition handleRetryWithAdmin (net : Net) : M unit :=
  try_catch
    (response <- fetch_ net "/retry_with_admin" ;;
     if resp_ok response then fetchData net else ret tt)
    (fun _ => emit (SetError (Some escalation_failed_msg))).

(** Component state: [data], [loading], [error]. *)
Record State : Type := mkState { data : JVal; loading : bool; error : option string }.

(** [useState(null)], [useState(true)], [useState(null)]. *)
Definition init_state : State := mkState JNull true None.

Definition apply_action (s : State) (a : Action) : State :=
  match a with
  | SetLoading b => mkState (data s) b (error s)
  | SetData v => mkState v (loading s) (error s)
  | SetError e => mkState (data s) (loading s) e
  | Fetch _ => s
  end.

Definition apply_actions (s : State) (w : list Action) : State :=
  fold_left apply_action w s.

(** What [SystemMonitor] renders. *)
Inductive View : Type :=
| Spinner                                  (** the [Loader2] card *)
| ErrorView (msg : string) (retry_button : bool)
| DataView (lines : list string)           (** text lines, in order *)
| RenderCrash (e : Exn).                   (** render threw *)

Fixpoint map_child (ws : list JVal) : Exn + list string :=
  match ws with
  | [] => inr []
  | w :: rest =>
      match render_child w, map_child rest with
      | inr a, inr b => inr (a :: b)
      | inl e, _ | _, inl e => inl e
      end
  end.

Definition sbind {A B} (r : Exn + A) (f : A -> Exn + B) : Exn + B :=
  match r with inl e => inl e | inr a => f a end.

(** What [{v && ...}] renders when [v] is falsy: [v] itself as a child
    ([0] shows as "0"; [null], [false] and "" show nothing). *)
Definition falsy_child (v : JVal) : list string :=
  match render_child v with
  | inr t => if String.eqb t "" then [] else [t]
  | inl _ => []
  end.

(** The [Analysis] block (lines 123-140). *)
Definition render_analysis (d : JVal) : Exn + list string :=
  sbind (js_get d "analysis") (fun an =>
  if negb (truthy an) then inr (falsy_child an) else
  sbind (js_get an "status") (fun st =>
  sbind (render_child st) (fun st_text =>
  sbind (js_get an "warnings") (fun ws =>
  sbind (js_get_opt ws "length") (fun len =>
  if negb (js_gt0 len) then inr ["Analysis"; "Status: " ++ st_text] else
  match ws with
  | JArr items =>
      sbind (map_child items) (fun texts =>
      inr ("Analysis" :: ("Status: " ++ st_text) :: "Warnings:" :: texts))
  | _ => inl (TypeError_ "data.analysis.warnings.map is not a function")
  end))))).

(** The [System Info] block (lines 111-121). *)
Definition render_system_info (d : JVal) : Exn + list string :=
  sbind (js_get d "diagnostics") (fun dg =>
  sbind (js_get dg "system_info") (fun si =>
  let si' := if truthy si then si else JObj [] in
  inr ("System Info" ::
       map (fun kv => fst kv ++ ": " ++ js_String (snd kv)) (object_entries si')))).

(** The data card (lines 103-145). *)
Definition render_data (d : JVal) : View :=
  if negb (truthy d) then DataView ("System Diagnostics" :: falsy_child d) else
  match render_system_info d with
  | inl e => RenderCrash e
  | inr l1 =>
      match render_analysis d with
      | inl e => RenderCrash e
      | inr l2 => DataView ("System Diagnostics" :: app l1 l2)
      end
  end.

(** [SystemMonitor]'s render (lines 78-145). *)
Definition render (s : State) : View :=
  if loading s then Spinner else
  match error s with
  | Some e =>
      if String.eqb e "" then render_data (data s)
      else ErrorView e (includes e "Administrative privileges")
  | None => render_data (data s)
  end.

(** A well-formed [/api/current] body:
    [{ diagnostics: { system_info, metrics }, analysis: { status, warnings } }]. *)
Definition api_body (system_info : list (string * string)) (metrics : JVal)
  (st : string) (warnings : list string) : JVal :=
  JObj [("diagnostics",
          JObj [("system_info", JObj (map (fun kv => (fst kv, JStr (snd kv))) system_info));
                ("metrics", metrics)]);
        ("analysis", JObj [("status", JStr st); ("warnings", JArr (map JStr warnings))])].

Definition net_const (o : FetchOutcome) : Net := fun _ => o.

(* ------------------------------------------------------------------ *)
(** ** Properties of [fetchData] *)

(** The parsed body's [suggest_admin] field is truthy (a body that does
    not parse, or has no readable field, does not suggest it). *)
Definition body_suggest_admin (b : Body) : bool :=
  match b with
  | BodyJson v => match js_get v "suggest_admin" with inr x => truthy x | inl _ => false end
  | BodyText _ => false
  end.

(** The successful outcome of [GET /api/current]: an ok response whose
    body parses. *)
Definition fetch_success (o : FetchOutcome) : option JVal :=
  match o with
  | Resp r => if resp_ok r then match body r with BodyJson v => Some v | BodyText _ => None end
              else None
  | NetErr _ => None
  end.

(* ------------------------------------------------------------------ *)
(** ** Escalation and the retry button *)

(** URLs fetched by a sequence of steps, in order. *)
Definition fetch_urls (w : list Action) : list string :=
  flat_map (fun a => match a with Fetch u => [u] | _ => [] end) w.

(** Whether a rendered view shows the 'Retry with Admin Privileges'
    button. *)
Definition has_retry_button (v : View) : bool :=
  match v with ErrorView _ b => b | _ => false end.

(** Events [SystemMonitor] reacts to: the mount effect ([fetchData()]
    then [setInterval]), a tick of the interval ([fetchData]), unmount
    ([clearInterval]) and a click on the retry button
    ([onClick={handleRetryWithAdmin}]). *)
Inductive Event : Type := Mount | IntervalTick | Unmount | ClickRetry.

Definition handle_event (net : Net) (ev : Event) : list Action :=
  match ev with
  | Mount | IntervalTick => actions (fetchData net)
  | Unmount => []
  | ClickRetry => actions (handleRetryWithAdmin net)
  end.

(* ------------------------------------------------------------------ *)
(** ** Polling: [useEffect] with [setInterval] on the event loop *)

(** An active [setInterval] timer: its id, delay and next due time (ms).
    Its callback is [fetchData], the only one the component registers. *)
Record Timer : Type := mkTimer { timer_id : nat; timer_delay : Z; timer_next : Z }.

(** The event loop as seen by [SystemMonitor]: the times at which
    [fetchData] was called, the active timers, the next timer id and the
    cleanup the mounted effect returned ([clearInterval(interval)]). *)
Record Loop : Type :=
  mkLoop { calls : list Z; timers : list Timer; next_id : nat; cleanup : option nat }.

Definition init_loop : Loop := mkLoop [] [] 0 None.

Definition poll_interval : Z := 5000.

(** The effect body (lines 72-76): [fetchData()], then
    [setInterval(fetchData, 5000)], returning its cleanup. *)
Definition mount_effect (t : Z) (l : Loop) : Loop :=
  let id := next_id l in
  mkLoop (app (calls l) [t])
         (app (timers l) [mkTimer id poll_interval (t + poll_interval)])
         (S id) (Some id).

(** Unmount runs the cleanup: [clearInterval(interval)]. *)
Definition run_cleanup (l : Loop) : Loop :=
  match cleanup l with
  | Some id => mkLoop (calls l) (filter (fun tm => negb (Nat.eqb (timer_id tm) id)) (timers l))
                      (next_id l) None
  | None => l
  end.

(** Timers due at [t] call [fetchData] and are re-armed [delay] later. *)
Fixpoint fire (t : Z) (ts : list Timer) (cs : list Z) : list Timer * list Z :=
  match ts with
  | [] => ([], cs)
  | tm :: rest =>
      if (timer_next tm =? t)%Z then
        let (rest', cs') := fire t rest (app cs [t]) in
        (mkTimer (timer_id tm) (timer_delay tm) (t + timer_delay tm) :: rest', cs')
      else
        let (rest', cs') := fire t rest cs in (tm :: rest', cs')
  end.

Definition fire_timers (t : Z) (l : Loop) : Loop :=
  let (ts, cs) := fire t (timers l) (calls l) in mkLoop cs ts (next_id l) (cleanup l).

(** One millisecond [t] of a component mounted at [m] and unmounted at
    [u]: the mount, then the unmount, then the due timers. *)
Definition tick (m u t : Z) (l : Loop) : Loop :=
  let l1 := if (t =? m)%Z then mount_effect t l else l in
  let l2 := if (t =? u)%Z then run_cleanup l1 else l1 in
  fire_timers t l2.

(** The loop after the milliseconds [0 .. T-1]. *)
Fixpoint run (m u : Z) (T : nat) : Loop :=
  match T with
  | O => init_loop
  | S T' => tick m u (Z.of_nat T') (run m u T')
  end.

(** Times at which the claim expects a fetch: the mount, then every
    5000 ms while mounted. *)
Definition poll_time (m u t : Z) : Prop :=
  t = m \/ (m < t < u /\ exists j, t = m + poll_interval * j)%Z.

(** Invariants of [run]: the phase of the mounted effect, and the calls
    made so far. *)
Definition phase_inv (m u t : Z) (l : Loop) : Prop :=
  (t <= m /\ timers l = [] /\ cleanup l = None /\ next_id l = 0%nat)%Z \/
  (m < t <= u /\ cleanup l = Some 0%nat /\ next_id l = 1%nat /\
   exists k, 0 <= k /\ timers l = [mkTimer 0%nat poll_interval (m + poll_interval * (k + 1))] /\
             m + poll_interval * k < t <= m + poll_interval * (k + 1))%Z \/
  (u < t /\ timers l = [] /\ cleanup l = None)%Z.

Definition calls_inv (m u t : Z) (cs : list Z) : Prop :=
  (forall x, In x cs <-> x < t /\ poll_time m u x)%Z /\ NoDup cs.

(* ------------------------------------------------------------------ *)
(** ** The data card *)

(** The [Analysis] lines the card shows for a status and warnings. *)
Definition analysis_lines (st : string) (ws : list string) : list string :=
  "Analysis" :: ("Status: " ++ st) ::
  match ws with [] => [] | _ => "Warnings:" :: ws end.

(** The [System Info] lines of a [system_info] mapping. *)
Definition system_info_lines (si : list (string * string)) : list string :=
  map (fun kv => fst kv ++ ": " ++ js_String (snd kv))
      (object_entries (JObj (map (fun kv => (fst kv, JStr (snd kv))) si))).

(* ------------------------------------------------------------------ *)
(** ** [SystemMonitorDashboard]: the static panels *)

(** The [systemData] state (lines 149-157); readings as integers. *)
Record SystemData : Type := mkSystemData {
  cpu_usage : Z; cpu_temperature : Z;
  memory_used : Z; memory_total : Z;
  disk : list (string * Z);                 (** [{ name, usage }] *)
  network_download : Z; network_upload : Z }.

Definition initial_system_data : SystemData :=
  mkSystemData 45 62 65 16 [("C:", 75%Z); ("D:", 40%Z)] 85 45.

(** The CPU badge's class (lines 197-203). *)
Definition cpu_badge_class (sd : SystemData) : string :=
  "px-2 py-1 rounded " ++
  (if (cpu_usage sd >? 80)%Z then "bg-red-100 text-red-600" else "bg-green-100 text-green-600").

(** The memory badge's class (lines 220-226). *)
Definition memory_badge_class (sd : SystemData) : string :=
  "px-2 py-1 rounded " ++
  (if (memory_used sd >? 80)%Z then "bg-red-100 text-red-600" else "bg-green-100 text-green-600").

(** The class of each disk's bar (lines 285-288), in [disk] order. *)
Definition disk_bar_classes (sd : SystemData) : list string :=
  map (fun d => "h-2.5 rounded-full " ++ (if (snd d >? 80)%Z then "bg-red-500" else "bg-green-500"))
      (disk sd).

(** A class list that paints the element red. *)
Definition is_red (cls : string) : bool := includes cls "red".

(* ------------------------------------------------------------------ *)
(** ** The alert dispatcher *)

Module Alerts.

Inductive Category : Type := CPU | Memory | Disk | Network | Sensors.
Inductive Severity : Type := Warning | Critical.
Inductive Channel : Type := Email | Webhook.

Definition Key : Type := (Category * Severity)%type.

Definition key_eq_dec (a b : Key) : {a = b} + {a <> b}.
Proof. decide equality; decide equality. Defined.

(** Modelled from the spec: the AnalysisResult of the analyzer (its
    source is not part of this repository's files): a status, ordered
    warnings, and the [(category, severity)] breaches they report. *)
Record AnalysisResult : Type := mkResult {
  result_status : Severity + unit;          (** [inr tt] is [ok] *)
  result_warnings : list string;
  breaches : list Key }.

(** Modelled from the spec: an AlertRecord ([channel], [message],
    [dedup_key], [sent_at]).  One record is created per new
    [(category, severity)] pair (Scenario E: exactly one AlertRecord at
    the first breach); [channel] lists the enabled channels it is sent
    on, each of them invoked independently. *)
Record AlertRecord : Type := mkAlert {
  channel : list Channel; alert_message : string; dedup_key : Key; sent_at : Z }.

Definition category_name (c : Category) : string :=
  match c with
  | CPU => "cpu" | Memory => "memory" | Disk => "disk"
  | Network => "network" | Sensors => "sensors"
  end.

Definition alert_text (k : Key) : string :=
  (match snd k with Warning => "warning: " | Critical => "critical: " end)
  ++ category_name (fst k).

(** The pairs breached in the previous cycle's result, if any. *)
Definition prev_breaches (previous : option AnalysisResult) : list Key :=
  match previous with Some p => breaches p | None => [] end.

(** Modelled from the spec: [AlertDispatcher.dispatch(result, previous)]
    (its source is not part of this repository's files).  Edge-triggered:
    a [(category, severity)] pair already breached in [previous] is
    suppressed; each new pair, taken once, gives one AlertRecord, sent on
    the enabled channels (disabled channels are skipped). *)
Definition dispatch (enabled : list Channel) (now : Z)
  (result : AnalysisResult) (previous : option AnalysisResult) : list AlertRecord :=
  let fresh := nodup key_eq_dec
                 (filter (fun k => if in_dec key_eq_dec k (prev_breaches previous) then false else true)
                         (breaches result)) in
  map (fun k => mkAlert enabled (alert_text k) k now) fresh.

(** Consecutive cycles, each compared with the result of the one before. *)
Fixpoint dispatch_run (enabled : list Channel) (previous : option AnalysisResult)
  (cycles : list (Z * AnalysisResult)) : list AlertRecord :=
  match cycles with
  | [] => []
  | (t, r) :: rest => app (dispatch enabled t r previous) (dispatch_run enabled (Some r) rest)
  end.

(** The records of one pair. *)
Definition for_key (k : Key) (l : list AlertRecord) : list AlertRecord :=
  filter (fun a => if key_eq_dec (dedup_key a) k then true else false) l.

End Alerts.

(* ------------------------------------------------------------------ *)
(** ** Successive polls and the Alerts panel *)

(** Polls that complete one after another, each [fetchData] seeing the
    given outcome of [fetch('/api/current')]. *)
Fixpoint poll_all (s : State) (outs : list FetchOutcome) : State :=
  match outs with
  | [] => s
  | o :: rest => poll_all (apply_actions s (actions (fetchData (net_const o)))) rest
  end.

(** The body of the last successful poll, [d] when there is none. *)
Fixpoint last_success (outs : list FetchOutcome) (d : JVal) : JVal :=
  match outs with
  | [] => d
  | o :: rest => last_success rest (match fetch_success o with Some v => v | None => d end)
  end.

(** An entry of the [alerts] state of [SystemMonitorDashboard]
    (lines 159-170). *)
Record AlertItem : Type := mkAlertItem {
  alert_type : string; alert_text_msg : string; alert_timestamp : string }.

Definition initial_alerts : list AlertItem :=
  [mkAlertItem "warning" "High CPU Usage" "2024-01-26 14:32";
   mkAlertItem "critical" "Low Disk Space on C:" "2024-01-26 14:15"].

(** The class of an alert row (lines 254-258). *)
Definition alert_row_class (a : AlertItem) : string :=
  "flex justify-between items-center p-2 rounded mb-2 " ++
  (if String.eqb (alert_type a) "critical"
   then "bg-red-50 border-l-4 border-red-500"
   else "bg-yellow-50 border-l-4 border-yellow-500").

(** The Alerts panel (lines 241-267): the count badge [{alerts.length}]
    and, for [alerts.slice(0, 3)], each row's class, message and
    timestamp. *)
Definition alerts_panel (alerts : list AlertItem) : string * list (string * string * string) :=
  (Z_to_dec (Z.of_nat (List.length alerts)),
   map (fun a => (alert_row_class a, alert_text_msg a, alert_timestamp a)) (firstn 3 alerts)).

(* ------------------------------------------------------------------ *)
(** * Properties *)

Example ex_render_ok :
  render (apply_actions init_state
            (actions (fetchData (net_const (Resp (mkResponse 200
               (BodyJson (api_body [("os", "Linux"); ("1", "x")] (JNum 3) "ok" ["hot"]))))))))
  = DataView ["System Diagnostics"; "System Info"; "1: x"; "os: Linux";
              "Analysis"; "Status: ok"; "Warnings:"; "hot"].
Proof. reflexivity. Qed.

Example ex_401 :
  render (apply_actions init_state
            (actions (fetchData (net_const (Resp (mkResponse 401 (BodyText "")))))))
  = ErrorView "Administrative privileges required" true.
Proof. reflexivity. Qed.

Example ex_500_html :
  error (apply_actions init_state
           (actions (fetchData (net_const (Resp (mkResponse 500 (BodyText "<html>")))))))
  = Some "Unexpected token '<' in JSON".
Proof. reflexivity. Qed.

Example ex_dec : Z_to_dec 1234 = "1234" /\ Z_to_dec (-50) = "-50" /\ str_to_number "42" = Some 42%Z.
Proof. repeat split; reflexivity. Qed.

(** The steps of [fetchData] once [fetch('/api/current')] has settled. *)
Lemma fetchData_actions (net : Net) :
  actions (fetchData net) =
  SetLoading true :: Fetch "/api/current" ::
  match net "/api/current" with
  | NetErr msg => [SetError (Some msg); SetLoading false]
  | Resp r =>
      if resp_ok r then
        match body r with
        | BodyJson v => [SetData v; SetError None; SetLoading false]
        | BodyText raw => [SetError (Some (json_syntax_message raw)); SetLoading false]
        end
      else if (status r =? 401)%Z then [SetError (Some admin_msg); SetLoading false]
      else if (status r =? 500)%Z then
        match body r with
        | BodyText raw => [SetError (Some (json_syntax_message raw)); SetLoading false]
        | BodyJson v =>
            match js_get v "suggest_admin" with
            | inl e => [SetError (Some (message e)); SetLoading false]
            | inr sa => if truthy sa then [SetError (Some admin_msg); SetLoading false]
                        else [SetError (Some fetch_failed_msg); SetLoading false]
            end
        end
      else [SetError (Some fetch_failed_msg); SetLoading false]
  end.
Proof.
  unfold fetchData, fetch_, actions.
  destruct (net "/api/current") as [[st b] | msg]; cbn; [| reflexivity].
  destruct (resp_ok _); cbn.
  - destruct b; reflexivity.
  - destruct (st =? 401)%Z; cbn; [reflexivity |].
    destruct (st =? 500)%Z; cbn; [| reflexivity].
    destruct b as [v | raw]; cbn; [| reflexivity].
    destruct (js_get v "suggest_admin") as [e | sa]; cbn; [reflexivity |].
    destruct (truthy sa); reflexivity.
Qed.

Lemma fetchData_outcome (net : Net) : outcome (fetchData net) = inr tt.
Proof.
  unfold fetchData, fetch_, outcome.
  destruct (net "/api/current") as [[st b] | msg]; cbn; [| reflexivity].
  destruct (resp_ok _); cbn.
  - destruct b; reflexivity.
  - destruct (st =? 401)%Z; cbn; [reflexivity |].
    destruct (st =? 500)%Z; cbn; [| reflexivity].
    destruct b as [v | raw]; cbn; [| reflexivity].
    destruct (js_get v "suggest_admin") as [e | sa]; cbn; [reflexivity |].
    destruct (truthy sa); reflexivity.
Qed.

Lemma json_syntax_message_not_admin (raw : string) : json_syntax_message raw <> admin_msg.
Proof. destruct raw; discriminate. Qed.

Lemma json_syntax_message_not_fetch_failed (raw : string) :
  json_syntax_message raw <> fetch_failed_msg.
Proof. destruct raw; discriminate. Qed.

Lemma js_get_error_not_admin (v : JVal) (k : string) (e : Exn) :
  js_get v k = inl e -> message e <> admin_msg.
Proof. destruct v; cbn; intro H; inversion H; subst; discriminate. Qed.

Lemma js_get_error_not_fetch_failed (v : JVal) (k : string) (e : Exn) :
  js_get v k = inl e -> message e <> fetch_failed_msg.
Proof. destruct v; cbn; intro H; inversion H; subst; discriminate. Qed.

(** Every response that is not ok and is neither a 401 nor a 500 leaves
    the generic failure message (for instance a 503 "not ready"). *)
Lemma fetchData_other_status (net : Net) (r : Response) (s : State)
  (Hnet : net "/api/current" = Resp r) (Hnok : resp_ok r = false)
  (H401 : status r <> 401%Z) (H500 : status r <> 500%Z) :
  error (apply_actions s (actions (fetchData net))) = Some fetch_failed_msg.
Proof.
  rewrite fetchData_actions, Hnet, Hnok.
  apply Z.eqb_neq in H401. apply Z.eqb_neq in H500.
  rewrite H401, H500. reflexivity.
Qed.

(** C1: for a non-ok response to [GET /api/current], [fetchData] records
    the escalation message 'Administrative privileges required' exactly
    when the status is 401, or it is 500 and the parsed body's
    [suggest_admin] is truthy; both cases give that one message, so the
    same error card with the retry button. *)
Theorem fetchData_admin_signal_iff (net : Net) (r : Response) (s : State)
  (Hnet : net "/api/current" = Resp r) (Hnok : resp_ok r = false) :
  (error (apply_actions s (actions (fetchData net))) = Some admin_msg <->
   (status r = 401%Z \/ (status r = 500%Z /\ body_suggest_admin (body r) = true))) /\
  ((status r = 401%Z \/ (status r = 500%Z /\ body_suggest_admin (body r) = true)) ->
   render (apply_actions s (actions (fetchData net))) = ErrorView admin_msg true).
Proof.
  rewrite fetchData_actions, Hnet, Hnok.
  destruct r as [st b]; cbn [status body].
  destruct (Z.eqb_spec st 401) as [E401 | N401].
  { subst st. cbn. split; [split; auto | intros _; reflexivity]. }
  destruct (Z.eqb_spec st 500) as [E500 | N500].
  - subst st. destruct b as [v | raw]; cbn [body_suggest_admin].
    + destruct (js_get v "suggest_admin") as [e | sa] eqn:Hg.
      * cbn. split.
        -- split; [intro H; inversion H as [H']; exfalso;
                   exact (js_get_error_not_admin v _ e Hg H') |].
           intros [H | [_ H]]; discriminate.
        -- intros [H | [_ H]]; discriminate.
      * destruct (truthy sa) eqn:Ht; cbn.
        -- split; [split; auto | intros _; reflexivity].
        -- split; [split; [intro H; discriminate | intros [H | [_ H]]; discriminate] |].
           intros [H | [_ H]]; discriminate.
    + cbn. split.
      * split; [intro H; inversion H as [H']; exfalso;
                exact (json_syntax_message_not_admin raw H') |].
        intros [H | [_ H]]; discriminate.
      * intros [H | [_ H]]; discriminate.
  - cbn. split; [split; [discriminate | intros [H | [H _]]; contradiction] |].
    intros [H | [H _]]; contradiction.
Qed.

Lemma fetchData_admin_signal_iff_witness :
  (net_const (Resp (mkResponse 500 (BodyJson (JObj [("suggest_admin", JBool true)]))))
     "/api/current" = Resp (mkResponse 500 (BodyJson (JObj [("suggest_admin", JBool true)]))) /\
   resp_ok (mkResponse 500 (BodyJson (JObj [("suggest_admin", JBool true)]))) = false) /\
  ((error (apply_actions init_state (actions (fetchData
       (net_const (Resp (mkResponse 500 (BodyJson (JObj [("suggest_admin", JBool true)]))))))))
     = Some admin_msg <->
    (status (mkResponse 500 (BodyJson (JObj [("suggest_admin", JBool true)]))) = 401%Z \/
     (status (mkResponse 500 (BodyJson (JObj [("suggest_admin", JBool true)]))) = 500%Z /\
      body_suggest_admin (body (mkResponse 500 (BodyJson (JObj [("suggest_admin", JBool true)]))))
      = true))) /\
   ((status (mkResponse 500 (BodyJson (JObj [("suggest_admin", JBool true)]))) = 401%Z \/
     (status (mkResponse 500 (BodyJson (JObj [("suggest_admin", JBool true)]))) = 500%Z /\
      body_suggest_admin (body (mkResponse 500 (BodyJson (JObj [("suggest_admin", JBool true)]))))
      = true)) ->
    render (apply_actions init_state (actions (fetchData
       (net_const (Resp (mkResponse 500 (BodyJson (JObj [("suggest_admin", JBool true)]))))))))
    = ErrorView admin_msg true)).
Proof.
  split; [split; reflexivity |].
  apply fetchData_admin_signal_iff; reflexivity.
Defined.

(** C3 (code_bug): a 500 whose body is an HTML error page is neither 401
    nor 500 with a truthy [suggest_admin], yet [fetchData] records the
    [JSON.parse] message, not 'Failed to fetch system data' (the handler
    still completes and [loading] ends [false]). *)
Theorem fetchData_500_html_not_generic :
  let s' := apply_actions init_state (actions (fetchData
              (net_const (Resp (mkResponse 500 (BodyText "<!doctype html>")))))) in
  error s' = Some "Unexpected token '<' in JSON" /\
  error s' <> Some fetch_failed_msg /\
  loading s' = false /\
  body_suggest_admin (BodyText "<!doctype html>") = false.
Proof.
  cbn. split; [reflexivity |]. split; [discriminate |]. split; reflexivity.
Qed.

(** C8: a 500 response whose body is not JSON makes the awaited
    [response.json()] throw inside the status test: the recorded error
    is the [SyntaxError]'s message, never one of the two intended
    messages, no intended message is ever set, and [loading] ends
    [false]. *)
Theorem fetchData_500_invalid_json (net : Net) (raw : string) (s : State)
  (Hnet : net "/api/current" = Resp (mkResponse 500 (BodyText raw))) :
  actions (fetchData net) =
    [SetLoading true; Fetch "/api/current";
     SetError (Some (json_syntax_message raw)); SetLoading false] /\
  error (apply_actions s (actions (fetchData net))) = Some (json_syntax_message raw) /\
  json_syntax_message raw <> admin_msg /\
  json_syntax_message raw <> fetch_failed_msg /\
  loading (apply_actions s (actions (fetchData net))) = false.
Proof.
  assert (Ha : actions (fetchData net) =
    [SetLoading true; Fetch "/api/current";
     SetError (Some (json_syntax_message raw)); SetLoading false]).
  { rewrite fetchData_actions, Hnet. reflexivity. }
  rewrite Ha. split; [reflexivity |]. split; [reflexivity |].
  split; [apply json_syntax_message_not_admin |].
  split; [apply json_syntax_message_not_fetch_failed | reflexivity].
Qed.

Lemma fetchData_500_invalid_json_witness :
  net_const (Resp (mkResponse 500 (BodyText "Internal Server Error"))) "/api/current"
    = Resp (mkResponse 500 (BodyText "Internal Server Error")) /\
  (actions (fetchData (net_const (Resp (mkResponse 500 (BodyText "Internal Server Error"))))) =
    [SetLoading true; Fetch "/api/current";
     SetError (Some (json_syntax_message "Internal Server Error")); SetLoading false] /\
   error (apply_actions init_state (actions (fetchData
     (net_const (Resp (mkResponse 500 (BodyText "Internal Server Error")))))))
     = Some (json_syntax_message "Internal Server Error") /\
   json_syntax_message "Internal Server Error" <> admin_msg /\
   json_syntax_message "Internal Server Error" <> fetch_failed_msg /\
   loading (apply_actions init_state (actions (fetchData
     (net_const (Resp (mkResponse 500 (BodyText "Internal Server Error"))))))) = false).
Proof.
  split; [reflexivity |].
  apply fetchData_500_invalid_json; reflexivity.
Defined.

(** Closes a failure branch of [fetchData_final_state]. *)
Ltac fail_case := cbn; split; [reflexivity | split; [reflexivity | discriminate]].

(** C9: every run of [fetchData] completes without rejecting and leaves
    [loading] false; when the fetch succeeds (ok response whose body
    parses) [data] becomes the parsed body and [error] is reset to null;
    on every failure [data] keeps its previous value and [error] is set. *)
Theorem fetchData_final_state (net : Net) (s : State) :
  outcome (fetchData net) = inr tt /\
  loading (apply_actions s (actions (fetchData net))) = false /\
  match fetch_success (net "/api/current") with
  | Some v => data (apply_actions s (actions (fetchData net))) = v /\
              error (apply_actions s (actions (fetchData net))) = None
  | None => data (apply_actions s (actions (fetchData net))) = data s /\
            error (apply_actions s (actions (fetchData net))) <> None
  end.
Proof.
  split; [apply fetchData_outcome |].
  rewrite fetchData_actions.
  destruct (net "/api/current") as [r | msg]; cbn [fetch_success]; [| fail_case].
  destruct (resp_ok r).
  - destruct (body r); [cbn; split; auto | fail_case].
  - destruct (status r =? 401)%Z; [fail_case |].
    destruct (status r =? 500)%Z; [| fail_case].
    destruct (body r) as [v | raw]; [| fail_case].
    destruct (js_get v "suggest_admin"); [fail_case |].
    destruct (truthy _); fail_case.
Qed.

Lemma fetchData_fetch_urls (net : Net) :
  fetch_urls (actions (fetchData net)) = ["/api/current"].
Proof.
  rewrite fetchData_actions.
  destruct (net "/api/current") as [r | msg]; [| reflexivity].
  destruct (resp_ok r); [destruct (body r); reflexivity |].
  destruct (status r =? 401)%Z; [reflexivity |].
  destruct (status r =? 500)%Z; [| reflexivity].
  destruct (body r) as [v | raw]; [| reflexivity].
  destruct (js_get v "suggest_admin"); [reflexivity |].
  destruct (truthy _); reflexivity.
Qed.

Lemma fetchData_no_retry (net : Net) :
  ~ In (Fetch "/retry_with_admin") (actions (fetchData net)).
Proof.
  intro Hin.
  assert (In "/retry_with_admin" (fetch_urls (actions (fetchData net)))) as Hc.
  { unfold fetch_urls. apply in_flat_map. exists (Fetch "/retry_with_admin").
    split; [exact Hin | left; reflexivity]. }
  rewrite fetchData_fetch_urls in Hc. destruct Hc as [Hc | []]. discriminate.
Qed.

(** C2: [handleRetryWithAdmin] fetches [/retry_with_admin] once, first;
    it calls [fetchData] (one fetch of [/api/current]) exactly when that
    response is ok, does nothing more when it is not ok, and records
    'Failed to obtain administrative access' when the fetch rejects; it
    never rejects itself.  The escalation request is a step of its own:
    the re-poll is the separate [fetchData] call that follows it. *)
Theorem handleRetryWithAdmin_steps (net : Net) :
  outcome (handleRetryWithAdmin net) = inr tt /\
  actions (handleRetryWithAdmin net) =
    Fetch "/retry_with_admin" ::
    match net "/retry_with_admin" with
    | NetErr _ => [SetError (Some escalation_failed_msg)]
    | Resp r => if resp_ok r then actions (fetchData net) else []
    end /\
  fetch_urls (actions (handleRetryWithAdmin net)) =
    "/retry_with_admin" ::
    match net "/retry_with_admin" with
    | Resp r => if resp_ok r then ["/api/current"] else []
    | NetErr _ => []
    end.
Proof.
  pose proof (fetchData_outcome net) as Ho. pose proof (fetchData_fetch_urls net) as Hu.
  unfold handleRetryWithAdmin, fetch_, outcome, actions in *.
  destruct (fetchData net) as [w o]. cbn in Ho, Hu. subst o.
  destruct (net "/retry_with_admin") as [r | msg]; cbn.
  - destruct (resp_ok r); cbn.
    + split; [reflexivity |]. split; [reflexivity |]. rewrite Hu. reflexivity.
    + repeat split.
  - repeat split.
Qed.

(** C7, as the code has it: the button is shown exactly when [loading]
    is false and [error] is a message containing 'Administrative
    privileges'; only the click handler fetches [/retry_with_admin]. *)
Theorem retry_button_iff (s : State) :
  (has_retry_button (render s) = true <->
   loading s = false /\
   exists e, error s = Some e /\ includes e "Administrative privileges" = true) /\
  (forall net ev, In (Fetch "/retry_with_admin") (handle_event net ev) -> ev = ClickRetry).
Proof.
  split.
  - unfold render. destruct (loading s); cbn.
    + split; [discriminate | intros [H _]; discriminate].
    + destruct (error s) as [e |]; cbn.
      * destruct (String.eqb_spec e "") as [-> | Hne]; cbn.
        -- split.
           ++ unfold render_data.
              destruct (negb (truthy (data s))); [discriminate |].
              destruct (render_system_info (data s)); [discriminate |].
              destruct (render_analysis (data s)); discriminate.
           ++ intros [_ [e' [He Hi]]]. inversion He; subst. discriminate.
        -- split.
           ++ intro H. split; [reflexivity |]. exists e. auto.
           ++ intros [_ [e' [He Hi]]]. inversion He; subst. exact Hi.
      * split.
        -- unfold render_data.
           destruct (negb (truthy (data s))); [discriminate |].
           destruct (render_system_info (data s)); [discriminate |].
           destruct (render_analysis (data s)); discriminate.
        -- intros [_ [e' [He _]]]. discriminate.
  - intros net ev Hin.
    destruct ev; [exfalso; exact (fetchData_no_retry net Hin) |
                  exfalso; exact (fetchData_no_retry net Hin) | destruct Hin | reflexivity].
Qed.

(** C7 as stated fails: after a 401 the error card shows the button;
    at the next poll [fetchData] first sets [loading], and while the
    request is pending the component renders the spinner although
    [error] still holds 'Administrative privileges required'. *)
Lemma retry_button_claim_counterexample :
  let s401 := apply_actions init_state
                (actions (fetchData (net_const (Resp (mkResponse 401 (BodyText "")))))) in
  let s := apply_actions s401
             (firstn 2 (actions (fetchData (net_const (Resp (mkResponse 503 (BodyText ""))))))) in
  has_retry_button (render s401) = true /\
  error s = Some admin_msg /\
  ~ (has_retry_button (render s) = true <->
     exists e, error s = Some e /\ includes e "Administrative privileges" = true).
Proof.
  cbn. split; [reflexivity |]. split; [reflexivity |].
  intros [_ H]. specialize (H (ex_intro _ admin_msg (conj eq_refl eq_refl))).
  discriminate.
Qed.

Lemma calls_inv_skip (m u t : Z) (cs : list Z) :
  calls_inv m u t cs -> ~ poll_time m u t -> calls_inv m u (t + 1) cs.
Proof.
  intros [Hin Hnd] Hp. split; [| exact Hnd].
  intro x. rewrite Hin. split; intros [Hx Hpx]; split; auto; [lia |].
  destruct (Z.eq_dec x t); [subst; contradiction | lia].
Qed.

Lemma calls_inv_add (m u t : Z) (cs : list Z) :
  calls_inv m u t cs -> poll_time m u t -> calls_inv m u (t + 1) (app cs [t]).
Proof.
  intros [Hin Hnd] Hp. split.
  - intro x. rewrite in_app_iff, Hin. cbn. split.
    + intros [[Hx Hpx] | [<- | []]]; split; auto; lia.
    + intros [Hx Hpx]. destruct (Z.eq_dec x t) as [-> | Hne]; [right; left; reflexivity |].
      left. split; [lia | exact Hpx].
  - apply NoDup_app; [exact Hnd | constructor; [intros [] | constructor] |].
    intros x Hx [<- | []]. apply Hin in Hx. lia.
Qed.

Lemma poll_time_before (m u t : Z) : (t < m)%Z -> ~ poll_time m u t.
Proof. intros Ht [H | [H _]]; lia. Qed.

Lemma poll_time_after (m u t : Z) : (m < u)%Z -> (u <= t)%Z -> ~ poll_time m u t.
Proof. intros Hmu Ht [H | [H _]]; lia. Qed.

Lemma poll_time_between (m u t k : Z) :
  (m < t < u)%Z -> (m + poll_interval * k < t <= m + poll_interval * (k + 1))%Z ->
  (poll_time m u t <-> t = m + poll_interval * (k + 1))%Z.
Proof.
  unfold poll_time, poll_interval. intros Hr Hk. split.
  - intros [H | [_ [j Hj]]]; [lia |].
    assert (j = k + 1)%Z by lia. subst. reflexivity.
  - intros ->. right. split; [lia | exists (k + 1)%Z; reflexivity].
Qed.

Lemma tick_inv (m u t : Z) (l : Loop) :
  (0 <= m < u)%Z -> phase_inv m u t l -> calls_inv m u t (calls l) ->
  phase_inv m u (t + 1) (tick m u t l) /\ calls_inv m u (t + 1) (calls (tick m u t l)).
Proof.
  intros Hmu Hph Hc. unfold tick.
  destruct Hph as [[Ht [Hts [Hcl Hid]]] | [[Ht [Hcl [Hid [k [Hk [Hts Hkt]]]]]] | [Ht [Hts Hcl]]]].
  - destruct (Z.eq_dec t m) as [-> | Hne].
    + rewrite Z.eqb_refl. destruct (Z.eqb_spec m u); [lia |].
      unfold mount_effect, fire_timers. rewrite Hts, Hid. cbn.
      destruct (Z.eqb_spec (m + poll_interval) m); [unfold poll_interval in *; lia |].
      cbn. split.
      * right; left. split; [lia |]. split; [reflexivity |]. split; [reflexivity |].
        exists 0%Z. split; [lia |]. split; [replace (poll_interval * (0 + 1))%Z with poll_interval by ring; reflexivity |].
        unfold poll_interval. lia.
      * apply calls_inv_add; [exact Hc | left; reflexivity].
    + destruct (Z.eqb_spec t m); [contradiction |].
      destruct (Z.eqb_spec t u); [lia |].
      unfold fire_timers. rewrite Hts. cbn. split.
      * left. split; [lia | auto].
      * apply calls_inv_skip; [exact Hc | apply poll_time_before; lia].
  - destruct (Z.eqb_spec t m); [lia |].
    destruct (Z.eqb_spec t u) as [-> | Hne].
    + unfold run_cleanup, fire_timers. rewrite Hcl, Hts. cbn. split.
      * right; right. split; [lia | auto].
      * apply calls_inv_skip; [exact Hc | apply poll_time_after; lia].
    + unfold fire_timers. rewrite Hts. cbn [fire timer_next timer_id timer_delay].
      destruct (Z.eqb_spec (m + poll_interval * (k + 1)) t) as [Hf | Hf];
        cbn [calls timers next_id cleanup].
      * split.
        -- right; left. split; [lia |]. split; [exact Hcl |]. split; [exact Hid |].
           exists (k + 1)%Z. split; [lia |]. split.
           ++ assert (E : (t + poll_interval = m + poll_interval * (k + 1 + 1))%Z)
                by (rewrite <- Hf; ring).
              rewrite E. reflexivity.
           ++ unfold poll_interval in *. lia.
        -- apply calls_inv_add; [exact Hc |].
           apply (poll_time_between m u t k); [lia | exact Hkt | lia].
      * split.
        -- right; left. split; [lia |]. split; [exact Hcl |]. split; [exact Hid |].
           exists k. split; [exact Hk |]. split; [reflexivity | lia].
        -- apply calls_inv_skip; [exact Hc |].
           rewrite (poll_time_between m u t k); [lia | lia | exact Hkt].
  - destruct (Z.eqb_spec t m); [lia |]. destruct (Z.eqb_spec t u); [lia |].
    unfold fire_timers. rewrite Hts. cbn. split.
    + right; right. split; [lia | auto].
    + apply calls_inv_skip; [exact Hc | apply poll_time_after; lia].
Qed.

Lemma run_inv (m u : Z) (T : nat) :
  (0 <= m < u)%Z ->
  phase_inv m u (Z.of_nat T) (run m u T) /\ calls_inv m u (Z.of_nat T) (calls (run m u T)).
Proof.
  intros Hmu. induction T as [| T IH]; cbn [run].
  - split.
    + left. cbn. repeat split; lia.
    + split; [| constructor]. intro x. cbn. split; [intros [] |].
      intros [Hx [H | [H _]]]; lia.
  - rewrite Nat2Z.inj_succ, <- Z.add_1_r.
    destruct IH as [Hph Hc]. apply tick_inv; assumption.
Qed.

(** C4: mounted at [m] and unmounted at [u], [SystemMonitor] calls
    [fetchData] once at the mount and then every 5000 ms while mounted,
    each time exactly once; after the unmount the interval is cleared, no
    timer is left and no call ever follows. *)
Theorem polling_schedule (m u : Z) (T : nat) (Hmu : (0 <= m < u)%Z) :
  (forall t, In t (calls (run m u T)) <->
             (t < Z.of_nat T)%Z /\
             (t = m \/ (m < t < u /\ exists j, t = m + 5000 * j))%Z) /\
  NoDup (calls (run m u T)) /\
  ((u < Z.of_nat T)%Z -> timers (run m u T) = [] /\ cleanup (run m u T) = None).
Proof.
  destruct (run_inv m u T Hmu) as [Hph [Hin Hnd]].
  split; [exact Hin |]. split; [exact Hnd |].
  intros Hu. destruct Hph as [[Ht _] | [[Ht _] | [_ H]]]; [lia | lia | exact H].
Qed.

Lemma polling_schedule_witness :
  (0 <= 0 < 12000)%Z /\
  ((forall t, In t (calls (run 0 12000 20000)) <->
             (t < Z.of_nat 20000)%Z /\
             (t = 0 \/ (0 < t < 12000 /\ exists j, t = 0 + 5000 * j))%Z) /\
   NoDup (calls (run 0 12000 20000)) /\
   ((12000 < Z.of_nat 20000)%Z ->
    timers (run 0 12000 20000) = [] /\ cleanup (run 0 12000 20000) = None)).
Proof.
  split; [lia |]. apply polling_schedule. lia.
Defined.

Lemma map_child_strs (ws : list string) : map_child (map JStr ws) = inr ws.
Proof. induction ws as [| w ws IH]; cbn; [reflexivity | rewrite IH; reflexivity]. Qed.

Lemma insert_by_index_perm (kv : string * JVal) (l : list (string * JVal)) :
  Permutation (insert_by_index kv l) (kv :: l).
Proof.
  induction l as [| kv' l IH]; cbn; [reflexivity |].
  destruct (index_key kv <=? index_key kv')%Z; [reflexivity |].
  rewrite IH. apply perm_swap.
Qed.

Lemma sort_by_index_perm (l : list (string * JVal)) : Permutation (sort_by_index l) l.
Proof.
  induction l as [| kv l IH]; cbn; [reflexivity |].
  rewrite insert_by_index_perm. apply perm_skip, IH.
Qed.

Lemma filter_partition_perm {A} (p : A -> bool) (l : list A) :
  Permutation (app (filter p l) (filter (fun x => negb (p x)) l)) l.
Proof.
  induction l as [| x l IH]; cbn; [reflexivity |].
  destruct (p x); cbn.
  - apply perm_skip, IH.
  - rewrite <- Permutation_middle. apply perm_skip, IH.
Qed.

Lemma object_entries_perm (kvs : list (string * JVal)) :
  Permutation (object_entries (JObj kvs)) kvs.
Proof.
  unfold object_entries.
  rewrite (Permutation_app_tail _ (sort_by_index_perm _)).
  apply filter_partition_perm.
Qed.

Lemma system_info_lines_perm (si : list (string * string)) :
  Permutation (system_info_lines si) (map (fun kv => fst kv ++ ": " ++ snd kv) si).
Proof.
  unfold system_info_lines.
  rewrite (Permutation_map _ (object_entries_perm _)).
  rewrite map_map. cbn. reflexivity.
Qed.

Lemma Z_of_nat_succ_pos (n : nat) : (0 <? Z.of_nat (S n))%Z = true.
Proof. apply Z.ltb_lt. lia. Qed.

Lemma render_data_api_body (si : list (string * string)) (metrics : JVal)
  (st : string) (ws : list string) :
  render_data (api_body si metrics st ws) =
  DataView ("System Diagnostics" :: "System Info" ::
            app (system_info_lines si) (analysis_lines st ws)).
Proof.
  unfold render_data, render_system_info, render_analysis, api_body.
  cbn -[object_entries map String.append].
  rewrite map_child_strs. unfold js_gt0, to_number.
  destruct ws as [| w ws]; [reflexivity |].
  cbn -[object_entries map String.append Z.of_nat].
  rewrite length_map. cbn [Datatypes.length]. rewrite Z_of_nat_succ_pos. reflexivity.
Qed.

(** C5: after a successful [GET /api/current] whose body has the API's
    shape, the card shows every [system_info] pair as "key: value" (in
    [Object.entries] order, a permutation of the body's), then
    "Status: <status>", then the warnings in the order received exactly
    when there are any; [metrics] does not occur in what is shown, which
    is the same for every [metrics] value. *)
Theorem data_view_success (net : Net) (code : Z) (si : list (string * string))
  (metrics : JVal) (st : string) (ws : list string) (s : State)
  (Hnet : net "/api/current" = Resp (mkResponse code (BodyJson (api_body si metrics st ws))))
  (Hok : resp_ok (mkResponse code (BodyJson (api_body si metrics st ws))) = true) :
  render (apply_actions s (actions (fetchData net))) =
    DataView ("System Diagnostics" :: "System Info" ::
              app (system_info_lines si) (analysis_lines st ws)) /\
  Permutation (system_info_lines si) (map (fun kv => fst kv ++ ": " ++ snd kv) si).
Proof.
  split; [| apply system_info_lines_perm].
  rewrite fetchData_actions, Hnet, Hok. cbn [body].
  unfold apply_actions. cbn [fold_left apply_action data loading error].
  unfold render. cbn [loading error data].
  apply render_data_api_body.
Qed.

Lemma data_view_success_witness :
  net_const (Resp (mkResponse 200 (BodyJson (api_body [("os", "Linux")] JNull "ok" [])))) "/api/current"
    = Resp (mkResponse 200 (BodyJson (api_body [("os", "Linux")] JNull "ok" []))) /\
  resp_ok (mkResponse 200 (BodyJson (api_body [("os", "Linux")] JNull "ok" []))) = true /\
  (render (apply_actions init_state (actions (fetchData
     (net_const (Resp (mkResponse 200 (BodyJson (api_body [("os", "Linux")] JNull "ok" [])))))))) =
    DataView ("System Diagnostics" :: "System Info" ::
              app (system_info_lines [("os", "Linux")]) (analysis_lines "ok" [])) /\
   Permutation (system_info_lines [("os", "Linux")])
               (map (fun kv => fst kv ++ ": " ++ snd kv) [("os", "Linux")])).
Proof.
  split; [reflexivity |]. split; [reflexivity |].
  apply (data_view_success _ 200 [("os", "Linux")] JNull "ok" [] init_state); reflexivity.
Defined.

(** C10: the CPU badge, the memory badge and each disk bar are red
    exactly when the shown value exceeds the constant 80; the panels
    read no configured threshold. *)
Theorem static_panels_red_iff (sd : SystemData) :
  is_red (cpu_badge_class sd) = (cpu_usage sd >? 80)%Z /\
  is_red (memory_badge_class sd) = (memory_used sd >? 80)%Z /\
  map is_red (disk_bar_classes sd) = map (fun d => (snd d >? 80)%Z) (disk sd).
Proof.
  split; [unfold cpu_badge_class; destruct (cpu_usage sd >? 80)%Z; reflexivity |].
  split; [unfold memory_badge_class; destruct (memory_used sd >? 80)%Z; reflexivity |].
  unfold disk_bar_classes. rewrite map_map.
  apply map_ext. intros [name u]. cbn [snd]. destruct (u >? 80)%Z; reflexivity.
Qed.

Section AlertProofs.
Import Alerts.

Lemma filter_all_false {A} (f : A -> bool) (l : list A) :
  (forall a, In a l -> f a = false) -> filter f l = [].
Proof.
  induction l as [| a l IH]; intros H; cbn; [reflexivity |].
  rewrite (H a (or_introl eq_refl)). apply IH. intros b Hb. apply H. right. exact Hb.
Qed.

Lemma for_key_none (k : Key) (l : list AlertRecord) :
  (forall a, In a l -> dedup_key a <> k) -> for_key k l = [].
Proof.
  intros H. apply filter_all_false. intros a Ha.
  destruct (key_eq_dec (dedup_key a) k) as [E | _]; [exfalso; exact (H a Ha E) | reflexivity].
Qed.

Lemma for_key_app (k : Key) (l1 l2 : list AlertRecord) :
  for_key k (app l1 l2) = app (for_key k l1) (for_key k l2).
Proof. unfold for_key. apply filter_app. Qed.

(** Every record of [dispatch] is for a pair of [result] absent from
    [previous]. *)
Lemma dispatch_key_fresh (enabled : list Channel) (now : Z) (result p : AnalysisResult)
  (a : AlertRecord) :
  In a (dispatch enabled now result (Some p)) -> ~ In (dedup_key a) (breaches p).
Proof.
  unfold dispatch. intros Ha. apply in_map_iff in Ha. destruct Ha as [k [<- Hk]]. cbn [dedup_key].
  apply nodup_In, filter_In in Hk. destruct Hk as [_ Hk]. cbn [prev_breaches] in Hk.
  destruct (in_dec key_eq_dec k (breaches p)); [discriminate | assumption].
Qed.

Lemma run_after_breach (enabled : list Channel) (cycles : list (Z * AnalysisResult))
  (p : AnalysisResult) (k : Key) :
  In k (breaches p) -> (forall t r, In (t, r) cycles -> In k (breaches r)) ->
  forall a, In a (dispatch_run enabled (Some p) cycles) -> dedup_key a <> k.
Proof.
  revert p. induction cycles as [| [t r] rest IH]; intros p Hp Hst a Ha; cbn in Ha; [contradiction |].
  apply in_app_iff in Ha. destruct Ha as [Ha | Ha].
  - intros E. apply (dispatch_key_fresh _ _ _ _ _ Ha). rewrite E. exact Hp.
  - apply (IH r); [apply (Hst t); left; reflexivity | | exact Ha].
    intros t' r' H. apply (Hst t'). right. exact H.
Qed.

Lemma for_key_map (enabled : list Channel) (now : Z) (keys : list Key) (k : Key) :
  NoDup keys ->
  for_key k (map (fun k' => mkAlert enabled (alert_text k') k' now) keys) =
  if in_dec key_eq_dec k keys then [mkAlert enabled (alert_text k) k now] else [].
Proof.
  induction 1 as [| k' keys Hk' Hnd IH]; [reflexivity |].
  unfold for_key in *. cbn [map filter dedup_key]. rewrite IH.
  destruct (key_eq_dec k' k) as [-> | Hne].
  - destruct (in_dec key_eq_dec k keys) as [Hin | _]; [contradiction |].
    destruct (in_dec key_eq_dec k (k :: keys)) as [_ | Hn]; [reflexivity |].
    exfalso. apply Hn. left. reflexivity.
  - destruct (in_dec key_eq_dec k keys) as [Hin | Hnin];
      destruct (in_dec key_eq_dec k (k' :: keys)) as [Hin' | Hnin']; try reflexivity.
    + exfalso. apply Hnin'. right. exact Hin.
    + destruct Hin' as [E | Hin']; [contradiction | contradiction].
Qed.

(** The records [dispatch] emits for one pair: one when the pair is
    breached in [result] and not in [previous], none otherwise. *)
Lemma dispatch_for_key (enabled : list Channel) (now : Z) (r : AnalysisResult)
  (previous : option AnalysisResult) (k : Key) :
  for_key k (dispatch enabled now r previous) =
  if in_dec key_eq_dec k (breaches r) then
    if in_dec key_eq_dec k (prev_breaches previous) then []
    else [mkAlert enabled (alert_text k) k now]
  else [].
Proof.
  unfold dispatch. rewrite for_key_map by apply NoDup_nodup.
  destruct (in_dec key_eq_dec k (nodup _ _)) as [Hin | Hnin].
  - apply nodup_In, filter_In in Hin. destruct Hin as [Hr Hp].
    destruct (in_dec key_eq_dec k (breaches r)) as [_ | Hn]; [| contradiction].
    destruct (in_dec key_eq_dec k (prev_breaches previous)); [discriminate | reflexivity].
  - destruct (in_dec key_eq_dec k (breaches r)) as [Hr | _]; [| reflexivity].
    destruct (in_dec key_eq_dec k (prev_breaches previous)) as [_ | Hp]; [reflexivity |].
    exfalso. apply Hnin. apply nodup_In, filter_In. split; [exact Hr |].
    destruct (in_dec key_eq_dec k (prev_breaches previous)); [contradiction | reflexivity].
Qed.

End AlertProofs.

(** C6: [dispatch result (Some previous)] emits no AlertRecord for a pair
    already breached in [previous]; over consecutive cycles in which a
    pair stays breached, at most one AlertRecord is emitted for it:
    exactly one, at the first of them, when the pair was not breached
    before (also after it cleared), and none when it already was. *)
Theorem dispatch_edge_triggered (enabled : list Alerts.Channel) :
  (forall now result p k, In k (Alerts.breaches p) ->
     Alerts.for_key k (Alerts.dispatch enabled now result (Some p)) = []) /\
  (forall previous cycles k,
     (forall t r, In (t, r) cycles -> In k (Alerts.breaches r)) ->
     List.length (Alerts.for_key k (Alerts.dispatch_run enabled previous cycles)) <= 1) /\
  (forall previous t r rest k,
     ~ In k (Alerts.prev_breaches previous) ->
     (forall t' r', In (t', r') ((t, r) :: rest) -> In k (Alerts.breaches r')) ->
     Alerts.for_key k (Alerts.dispatch_run enabled previous ((t, r) :: rest)) =
       [Alerts.mkAlert enabled (Alerts.alert_text k) k t]) /\
  (forall p cycles k, In k (Alerts.breaches p) ->
     (forall t r, In (t, r) cycles -> In k (Alerts.breaches r)) ->
     Alerts.for_key k (Alerts.dispatch_run enabled (Some p) cycles) = []).
Proof.
  split; [| split; [| split]].
  - intros now result p k Hk. apply for_key_none. intros a Ha E.
    apply (dispatch_key_fresh _ _ _ _ _ Ha). rewrite E. exact Hk.
  - intros previous [| [t r] rest] k Hst; cbn [Alerts.dispatch_run]; [cbn; lia |].
    rewrite for_key_app, (for_key_none k (Alerts.dispatch_run enabled (Some r) rest)), app_nil_r.
    + rewrite dispatch_for_key.
      destruct (in_dec Alerts.key_eq_dec k (Alerts.breaches r));
        [destruct (in_dec Alerts.key_eq_dec k (Alerts.prev_breaches previous)) |]; cbn; lia.
    + apply run_after_breach; [apply (Hst t); left; reflexivity |].
      intros t' r' H. apply (Hst t'). right. exact H.
  - intros previous t r rest k Hp Hst. cbn [Alerts.dispatch_run].
    rewrite for_key_app, (for_key_none k (Alerts.dispatch_run enabled (Some r) rest)), app_nil_r.
    + rewrite dispatch_for_key.
      destruct (in_dec Alerts.key_eq_dec k (Alerts.breaches r)) as [_ | Hn].
      * destruct (in_dec Alerts.key_eq_dec k (Alerts.prev_breaches previous)); [contradiction | reflexivity].
      * exfalso. apply Hn. apply (Hst t). left. reflexivity.
    + apply run_after_breach; [apply (Hst t); left; reflexivity |].
      intros t' r' H. apply (Hst t'). right. exact H.
  - intros p cycles k Hp Hst. apply for_key_none. apply run_after_breach; assumption.
Qed.

(** Scenario E: a CPU warning that holds for three consecutive cycles,
    with both channels enabled, gives exactly one AlertRecord, at the
    first cycle. *)
Lemma dispatch_edge_triggered_witness :
  let r := Alerts.mkResult (inl Alerts.Warning) ["cpu usage 95"] [(Alerts.CPU, Alerts.Warning)] in
  ~ In (Alerts.CPU, Alerts.Warning) (Alerts.prev_breaches None) /\
  (forall t' r', In (t', r') [(0%Z, r); (1%Z, r); (2%Z, r)] ->
     In (Alerts.CPU, Alerts.Warning) (Alerts.breaches r')) /\
  Alerts.for_key (Alerts.CPU, Alerts.Warning)
    (Alerts.dispatch_run [Alerts.Email; Alerts.Webhook] None [(0%Z, r); (1%Z, r); (2%Z, r)]) =
    [Alerts.mkAlert [Alerts.Email; Alerts.Webhook]
       (Alerts.alert_text (Alerts.CPU, Alerts.Warning)) (Alerts.CPU, Alerts.Warning) 0%Z].
Proof.
  cbv zeta.
  assert (Hp : ~ In (Alerts.CPU, Alerts.Warning) (Alerts.prev_breaches None)) by (cbn; intros []).
  assert (Hst : forall t' r',
            In (t', r') [(0%Z, Alerts.mkResult (inl Alerts.Warning) ["cpu usage 95"] [(Alerts.CPU, Alerts.Warning)]);
                         (1%Z, Alerts.mkResult (inl Alerts.Warning) ["cpu usage 95"] [(Alerts.CPU, Alerts.Warning)]);
                         (2%Z, Alerts.mkResult (inl Alerts.Warning) ["cpu usage 95"] [(Alerts.CPU, Alerts.Warning)])] ->
            In (Alerts.CPU, Alerts.Warning) (Alerts.breaches r')).
  { intros t' r' H. destruct H as [H | [H | [H | []]]]; injection H as _ <-; left; reflexivity. }
  split; [exact Hp |]. split; [exact Hst |].
  exact (proj1 (proj2 (proj2 (dispatch_edge_triggered [Alerts.Email; Alerts.Webhook])))
           None 0%Z _ _ _ Hp Hst).
Defined.

(* ------------------------------------------------------------------ *)
(** ** Further properties of [fetchData] *)

(** Splits [fetchData_actions] into all its branches. *)
Ltac fetch_branches net :=
  let r := fresh "r" in let msg := fresh "msg" in
  destruct (net "/api/current") as [r | msg];
  [ destruct (resp_ok r);
    [ destruct (body r)
    | destruct (status r =? 401)%Z;
      [ | destruct (status r =? 500)%Z;
          [ let v := fresh "v" in let raw := fresh "raw" in
            destruct (body r) as [v | raw];
            [ let sa := fresh "sa" in let e := fresh "e" in
              destruct (js_get v "suggest_admin") as [e | sa];
              [ | destruct (truthy sa)]
            | ]
          | ] ] ]
  | ].

(** Every call of [fetchData] first sets [loading], then issues exactly
    one request, to [/api/current], and ends by clearing [loading]. *)
Theorem fetchData_request_shape (net : Net) :
  firstn 2 (actions (fetchData net)) = [SetLoading true; Fetch "/api/current"] /\
  fetch_urls (actions (fetchData net)) = ["/api/current"] /\
  last (actions (fetchData net)) (Fetch "") = SetLoading false.
Proof.
  split; [rewrite fetchData_actions; reflexivity |].
  split; [apply fetchData_fetch_urls |].
  rewrite fetchData_actions. fetch_branches net; reflexivity.
Qed.

(** When [fetch('/api/current')] rejects, the rejection's message becomes
    the error, [data] is kept and [loading] ends false. *)
Theorem fetchData_network_error (net : Net) (msg : string) (s : State)
  (Hnet : net "/api/current" = NetErr msg) :
  apply_actions s (actions (fetchData net)) = mkState (data s) false (Some msg).
Proof. rewrite fetchData_actions, Hnet. reflexivity. Qed.

Lemma fetchData_network_error_witness :
  net_const (NetErr "Failed to fetch") "/api/current" = NetErr "Failed to fetch" /\
  apply_actions init_state (actions (fetchData (net_const (NetErr "Failed to fetch"))))
    = mkState (data init_state) false (Some "Failed to fetch").
Proof. split; [reflexivity | apply fetchData_network_error; reflexivity]. Defined.

(** An ok response whose body is not JSON is a failure too: the error is
    the [JSON.parse] message and [data] is kept. *)
Theorem fetchData_ok_not_json (net : Net) (r : Response) (raw : string) (s : State)
  (Hnet : net "/api/current" = Resp r) (Hok : resp_ok r = true) (Hb : body r = BodyText raw) :
  apply_actions s (actions (fetchData net)) =
    mkState (data s) false (Some (json_syntax_message raw)).
Proof. rewrite fetchData_actions, Hnet, Hok, Hb. reflexivity. Qed.

Lemma fetchData_ok_not_json_witness :
  net_const (Resp (mkResponse 200 (BodyText ""))) "/api/current" = Resp (mkResponse 200 (BodyText "")) /\
  resp_ok (mkResponse 200 (BodyText "")) = true /\
  body (mkResponse 200 (BodyText "")) = BodyText "" /\
  apply_actions init_state (actions (fetchData (net_const (Resp (mkResponse 200 (BodyText ""))))))
    = mkState (data init_state) false (Some (json_syntax_message "")).
Proof.
  split; [reflexivity |]. split; [reflexivity |]. split; [reflexivity |].
  apply (fetchData_ok_not_json _ (mkResponse 200 (BodyText ""))); reflexivity.
Defined.

(** A failed response with a status other than 401 and 500 (for instance
    a 503 "not ready") records 'Failed to fetch system data' whatever its
    body, keeps [data] and clears [loading]. *)
Theorem fetchData_other_failure_state (net : Net) (r : Response) (s : State)
  (Hnet : net "/api/current" = Resp r) (Hnok : resp_ok r = false)
  (H401 : status r <> 401%Z) (H500 : status r <> 500%Z) :
  apply_actions s (actions (fetchData net)) = mkState (data s) false (Some fetch_failed_msg).
Proof.
  rewrite fetchData_actions, Hnet, Hnok.
  apply Z.eqb_neq in H401. apply Z.eqb_neq in H500. rewrite H401, H500. reflexivity.
Qed.

Lemma fetchData_other_failure_state_witness :
  net_const (Resp (mkResponse 503 (BodyText "<html>"))) "/api/current"
    = Resp (mkResponse 503 (BodyText "<html>")) /\
  resp_ok (mkResponse 503 (BodyText "<html>")) = false /\
  status (mkResponse 503 (BodyText "<html>")) <> 401%Z /\
  status (mkResponse 503 (BodyText "<html>")) <> 500%Z /\
  apply_actions init_state (actions (fetchData (net_const (Resp (mkResponse 503 (BodyText "<html>"))))))
    = mkState (data init_state) false (Some fetch_failed_msg).
Proof.
  split; [reflexivity |]. split; [reflexivity |]. split; [discriminate |]. split; [discriminate |].
  apply (fetchData_other_failure_state _ (mkResponse 503 (BodyText "<html>"))).
  - reflexivity.
  - reflexivity.
  - discriminate.
  - discriminate.
Defined.

(** A 500 whose JSON body is an object with no truthy [suggest_admin]
    (missing, [false], [0], "" or [null]) records 'Failed to fetch
    system data'. *)
Theorem fetchData_500_without_flag (net : Net) (kvs : list (string * JVal)) (s : State)
  (Hnet : net "/api/current" = Resp (mkResponse 500 (BodyJson (JObj kvs))))
  (Hflag : match assoc_lookup "suggest_admin" kvs with Some x => truthy x = false | None => True end) :
  apply_actions s (actions (fetchData net)) = mkState (data s) false (Some fetch_failed_msg).
Proof.
  rewrite fetchData_actions, Hnet. cbn [resp_ok status body js_get].
  destruct (assoc_lookup "suggest_admin" kvs) as [x |]; [rewrite Hflag |]; reflexivity.
Qed.

Lemma fetchData_500_without_flag_witness :
  net_const (Resp (mkResponse 500 (BodyJson (JObj [("error", JStr "boom")])))) "/api/current"
    = Resp (mkResponse 500 (BodyJson (JObj [("error", JStr "boom")]))) /\
  (match assoc_lookup "suggest_admin" [("error", JStr "boom")] with
   | Some x => truthy x = false | None => True end) /\
  apply_actions init_state (actions (fetchData
    (net_const (Resp (mkResponse 500 (BodyJson (JObj [("error", JStr "boom")])))))))
    = mkState (data init_state) false (Some fetch_failed_msg).
Proof.
  split; [reflexivity |]. split; [exact I |].
  apply (fetchData_500_without_flag _ [("error", JStr "boom")]); [reflexivity | exact I].
Defined.

(** A 500 whose JSON body is [null] makes the [.suggest_admin] read throw:
    the error is the engine's [TypeError] message. *)
Theorem fetchData_500_null_body (net : Net) (s : State)
  (Hnet : net "/api/current" = Resp (mkResponse 500 (BodyJson JNull))) :
  apply_actions s (actions (fetchData net)) =
    mkState (data s) false (Some "Cannot read properties of null (reading 'suggest_admin')").
Proof. rewrite fetchData_actions, Hnet. reflexivity. Qed.

Lemma fetchData_500_null_body_witness :
  net_const (Resp (mkResponse 500 (BodyJson JNull))) "/api/current"
    = Resp (mkResponse 500 (BodyJson JNull)) /\
  apply_actions init_state (actions (fetchData (net_const (Resp (mkResponse 500 (BodyJson JNull))))))
    = mkState (data init_state) false (Some "Cannot read properties of null (reading 'suggest_admin')").
Proof. split; [reflexivity | apply fetchData_500_null_body; reflexivity]. Defined.

(** The state [fetchData] leaves, by outcome. *)
Lemma fetchData_step (net : Net) (s : State) :
  match fetch_success (net "/api/current") with
  | Some v => apply_actions s (actions (fetchData net)) = mkState v false None
  | None => exists m, apply_actions s (actions (fetchData net)) = mkState (data s) false (Some m)
  end.
Proof.
  rewrite fetchData_actions. unfold fetch_success.
  fetch_branches net; cbn; eauto.
Qed.

Lemma poll_all_app (s : State) (pre post : list FetchOutcome) :
  poll_all s (app pre post) = poll_all (poll_all s pre) post.
Proof. revert s. induction pre as [| o pre IH]; intro s; cbn; [reflexivity | apply IH]. Qed.

(** Successive polls: [data] is the body of the last successful poll (the
    earlier value when none succeeded), [loading] is false once a poll
    has run, and [error] is null exactly when the last poll succeeded. *)
Theorem poll_all_state (s : State) (outs : list FetchOutcome) :
  data (poll_all s outs) = last_success outs (data s) /\
  (outs <> [] -> loading (poll_all s outs) = false) /\
  (forall pre o, outs = app pre [o] ->
     (error (poll_all s outs) = None <-> fetch_success o <> None)).
Proof.
  split; [| split].
  - revert s. induction outs as [| o rest IH]; intro s; cbn [poll_all last_success]; [reflexivity |].
    rewrite IH. f_equal.
    pose proof (fetchData_step (net_const o) s) as H.
    change (net_const o "/api/current") with o in H.
    destruct (fetch_success o) as [v |]; [rewrite H; reflexivity |].
    destruct H as [m H]. rewrite H. reflexivity.
  - intros Hne. destruct outs as [| o rest] using rev_ind; [contradiction |].
    rewrite poll_all_app. cbn [poll_all].
    pose proof (fetchData_step (net_const o) (poll_all s rest)) as H.
    change (net_const o "/api/current") with o in H.
    destruct (fetch_success o); [rewrite H; reflexivity | destruct H as [m H]; rewrite H; reflexivity].
  - intros pre o ->. rewrite poll_all_app. cbn [poll_all].
    pose proof (fetchData_step (net_const o) (poll_all s pre)) as H.
    change (net_const o "/api/current") with o in H.
    destruct (fetch_success o).
    + rewrite H. cbn. split; [discriminate | reflexivity].
    + destruct H as [m H]. rewrite H. cbn. split; [discriminate | intros Hc; contradiction].
Qed.

Lemma handleRetryWithAdmin_ok_actions (net : Net) (r : Response)
  (Hr : net "/retry_with_admin" = Resp r) (Hok : resp_ok r = true) :
  actions (handleRetryWithAdmin net) = Fetch "/retry_with_admin" :: actions (fetchData net).
Proof.
  pose proof (fetchData_outcome net) as Ho.
  unfold handleRetryWithAdmin, fetch_, actions, outcome in *.
  destruct (fetchData net) as [w o]. cbn in Ho. subst o.
  rewrite Hr. cbn. rewrite Hok. reflexivity.
Qed.

(** An escalation answered with a non-ok response changes nothing: the
    state, and so the error card with its retry button, stay as they
    were. *)
Theorem retry_not_ok_unchanged (net : Net) (r : Response) (s : State)
  (Hr : net "/retry_with_admin" = Resp r) (Hok : resp_ok r = false) :
  apply_actions s (actions (handleRetryWithAdmin net)) = s.
Proof.
  unfold handleRetryWithAdmin, fetch_. rewrite Hr. cbn -[fetchData]. rewrite Hok. reflexivity.
Qed.

Lemma retry_not_ok_unchanged_witness :
  net_const (Resp (mkResponse 403 (BodyText ""))) "/retry_with_admin"
    = Resp (mkResponse 403 (BodyText "")) /\
  resp_ok (mkResponse 403 (BodyText "")) = false /\
  apply_actions init_state (actions (handleRetryWithAdmin (net_const (Resp (mkResponse 403 (BodyText ""))))))
    = init_state.
Proof.
  split; [reflexivity |]. split; [reflexivity |].
  apply (retry_not_ok_unchanged _ (mkResponse 403 (BodyText ""))); reflexivity.
Defined.

(** A granted escalation followed by a successful re-poll clears the
    error, from any state: the card shows the new body. *)
Theorem retry_then_success (net : Net) (r : Response) (v : JVal) (s : State)
  (Hr : net "/retry_with_admin" = Resp r) (Hok : resp_ok r = true)
  (Hs : fetch_success (net "/api/current") = Some v) :
  apply_actions s (actions (handleRetryWithAdmin net)) = mkState v false None /\
  render (apply_actions s (actions (handleRetryWithAdmin net))) = render_data v.
Proof.
  rewrite (handleRetryWithAdmin_ok_actions net r Hr Hok).
  pose proof (fetchData_step net s) as H. rewrite Hs in H.
  change (apply_actions s (Fetch "/retry_with_admin" :: actions (fetchData net)))
    with (apply_actions s (actions (fetchData net))).
  rewrite H. split; reflexivity.
Qed.

Lemma retry_then_success_witness :
  (fun u => if String.eqb u "/retry_with_admin" then Resp (mkResponse 200 (BodyText "ok"))
            else Resp (mkResponse 200 (BodyJson JNull))) "/retry_with_admin"
    = Resp (mkResponse 200 (BodyText "ok")) /\
  resp_ok (mkResponse 200 (BodyText "ok")) = true /\
  fetch_success ((fun u => if String.eqb u "/retry_with_admin" then Resp (mkResponse 200 (BodyText "ok"))
                           else Resp (mkResponse 200 (BodyJson JNull))) "/api/current") = Some JNull /\
  (apply_actions init_state (actions (handleRetryWithAdmin
     (fun u => if String.eqb u "/retry_with_admin" then Resp (mkResponse 200 (BodyText "ok"))
               else Resp (mkResponse 200 (BodyJson JNull))))) = mkState JNull false None /\
   render (apply_actions init_state (actions (handleRetryWithAdmin
     (fun u => if String.eqb u "/retry_with_admin" then Resp (mkResponse 200 (BodyText "ok"))
               else Resp (mkResponse 200 (BodyJson JNull)))))) = render_data JNull).
Proof.
  split; [reflexivity |]. split; [reflexivity |]. split; [reflexivity |].
  apply (retry_then_success _ (mkResponse 200 (BodyText "ok"))); reflexivity.
Defined.

(** When the escalation request itself rejects, the error becomes
    'Failed to obtain administrative access', [data] and [loading] are
    kept, and once not loading the error card no longer offers the retry
    button. *)
Theorem retry_rejected (net : Net) (m : string) (s : State)
  (Hr : net "/retry_with_admin" = NetErr m) :
  apply_actions s (actions (handleRetryWithAdmin net)) =
    mkState (data s) (loading s) (Some escalation_failed_msg) /\
  (loading s = false ->
   render (apply_actions s (actions (handleRetryWithAdmin net))) = ErrorView escalation_failed_msg false).
Proof.
  unfold handleRetryWithAdmin, fetch_. rewrite Hr. cbn -[fetchData].
  split; [reflexivity |]. intros Hl. unfold render. cbn [loading error]. rewrite Hl. reflexivity.
Qed.

Lemma retry_rejected_witness :
  net_const (NetErr "Failed to fetch") "/retry_with_admin" = NetErr "Failed to fetch" /\
  (apply_actions (mkState JNull false (Some admin_msg))
     (actions (handleRetryWithAdmin (net_const (NetErr "Failed to fetch")))) =
     mkState JNull false (Some escalation_failed_msg) /\
   (false = false ->
    render (apply_actions (mkState JNull false (Some admin_msg))
              (actions (handleRetryWithAdmin (net_const (NetErr "Failed to fetch")))))
    = ErrorView escalation_failed_msg false)).
Proof.
  split; [reflexivity |].
  apply (retry_rejected _ "Failed to fetch" (mkState JNull false (Some admin_msg))); reflexivity.
Defined.

(** ** Further properties of the data card *)

(** A render error of a JSX child is always React's refusal of a plain
    object. *)
Lemma render_child_error : forall v e,
  render_child v = inl e -> e = Error_ "Objects are not valid as a React child".
Proof.
  fix IH 1. intros [| | b | n | s | xs | kvs] e H; cbn in H; try discriminate.
  - revert e H. generalize xs. fix IHl 1. intros [| x rest] e H; [discriminate |].
    cbn in H. destruct (render_child x) as [e1 | t1] eqn:E1.
    + injection H as <-. exact (IH x e1 E1).
    + match type of H with
      | context [match ?g with inl _ => _ | inr _ => _ end] =>
          destruct g as [e2 | t2] eqn:E2
      end; [injection H as <- | discriminate].
      exact (IHl rest e2 E2).
  - injection H as <-. reflexivity.
Qed.

Lemma map_child_error (ws : list JVal) (e : Exn) :
  map_child ws = inl e -> e = Error_ "Objects are not valid as a React child".
Proof.
  revert e. induction ws as [| w rest IH]; intros e H; cbn in H; [discriminate |].
  destruct (render_child w) as [e1 | t1] eqn:E1.
  - injection H as <-. exact (render_child_error w e1 E1).
  - destruct (map_child rest) as [e2 | t2]; [injection H as <-; exact (IH e2 eq_refl) | discriminate].
Qed.

Lemma map_child_obj (ws : list JVal) (o : list (string * JVal)) :
  In (JObj o) ws -> exists e, map_child ws = inl e.
Proof.
  induction ws as [| w rest IH]; intros Hin; [destruct Hin |].
  cbn. destruct Hin as [-> | Hin]; [cbn; eauto |].
  destruct (IH Hin) as [e He]. rewrite He.
  destruct (render_child w); eauto.
Qed.

(** A falsy body (null, false, 0, "") shows the card title only, plus the
    text "0" when the body is the number 0 ([{data && ...}] renders 0). *)
Theorem render_data_falsy (d : JVal) (H : truthy d = false) :
  render_data d = DataView ("System Diagnostics" :: match d with JNum _ => ["0"] | _ => [] end).
Proof.
  unfold render_data. rewrite H. cbn [negb].
  destruct d as [| | b | n | s | xs | kvs]; cbn in H |- *; try reflexivity; try discriminate.
  - apply negb_false_iff, Z.eqb_eq in H. subst n. reflexivity.
  - apply negb_false_iff, String.eqb_eq in H. subst s. reflexivity.
Qed.

Lemma render_data_falsy_witness :
  truthy (JNum 0) = false /\ render_data (JNum 0) = DataView ["System Diagnostics"; "0"].
Proof. split; [reflexivity | apply (render_data_falsy (JNum 0)); reflexivity]. Defined.

(** A body without a [diagnostics] property crashes the render: reading
    [system_info] of [undefined]. *)
Theorem render_data_no_diagnostics (kvs : list (string * JVal))
  (H : assoc_lookup "diagnostics" kvs = None) :
  render_data (JObj kvs) =
    RenderCrash (TypeError_ "Cannot read properties of undefined (reading 'system_info')").
Proof. unfold render_data, render_system_info. cbn [truthy negb js_get sbind]. rewrite H. reflexivity. Qed.

Lemma render_data_no_diagnostics_witness :
  assoc_lookup "diagnostics" [("error", JStr "boom")] = None /\
  render_data (JObj [("error", JStr "boom")]) =
    RenderCrash (TypeError_ "Cannot read properties of undefined (reading 'system_info')").
Proof. split; [reflexivity | apply render_data_no_diagnostics; reflexivity]. Defined.

(** With [diagnostics] an object whose [system_info] is missing or falsy,
    and [analysis] missing or falsy (other than 0), the card shows only
    its title and the 'System Info' heading. *)
Theorem render_data_empty_sections (kvs dg : list (string * JVal))
  (Hd : assoc_lookup "diagnostics" kvs = Some (JObj dg))
  (Hsi : match assoc_lookup "system_info" dg with Some x => truthy x = false | None => True end)
  (Ha : match assoc_lookup "analysis" kvs with
        | Some x => truthy x = false /\ (forall n, x <> JNum n) | None => True end) :
  render_data (JObj kvs) = DataView ["System Diagnostics"; "System Info"].
Proof.
  unfold render_data, render_system_info, render_analysis.
  cbn [truthy negb js_get sbind]. rewrite Hd. cbn [js_get sbind].
  replace (if truthy match assoc_lookup "system_info" dg with Some x => x | None => JUndef end
           then match assoc_lookup "system_info" dg with Some x => x | None => JUndef end
           else JObj []) with (JObj []).
  2:{ destruct (assoc_lookup "system_info" dg) as [x |]; [rewrite Hsi |]; reflexivity. }
  destruct (assoc_lookup "analysis" kvs) as [x |].
  - destruct Ha as [Hx Hn]. rewrite Hx. cbn [negb].
    destruct x as [| | b | n | s | xs | o]; cbn in Hx; try discriminate;
      [reflexivity | reflexivity | subst b; reflexivity | exfalso; exact (Hn n eq_refl) |].
    apply negb_false_iff, String.eqb_eq in Hx. subst s. reflexivity.
  - reflexivity.
Qed.

Lemma render_data_empty_sections_witness :
  assoc_lookup "diagnostics" [("diagnostics", JObj [("system_info", JNull)])] =
    Some (JObj [("system_info", JNull)]) /\
  truthy JNull = false /\
  render_data (JObj [("diagnostics", JObj [("system_info", JNull)])]) =
    DataView ["System Diagnostics"; "System Info"].
Proof.
  split; [reflexivity |]. split; [reflexivity |].
  apply (render_data_empty_sections _ [("system_info", JNull)]); cbn; trivial.
Defined.

(** A plain object among the warnings crashes the render with React's
    'Objects are not valid as a React child'. *)
Theorem render_data_object_warning (kvs dg an o : list (string * JVal)) (ws : list JVal) (st : string)
  (Hd : assoc_lookup "diagnostics" kvs = Some (JObj dg))
  (Ha : assoc_lookup "analysis" kvs = Some (JObj an))
  (Hst : assoc_lookup "status" an = Some (JStr st))
  (Hw : assoc_lookup "warnings" an = Some (JArr ws))
  (Hin : In (JObj o) ws) :
  render_data (JObj kvs) = RenderCrash (Error_ "Objects are not valid as a React child").
Proof.
  destruct (map_child_obj ws o Hin) as [e He].
  pose proof (map_child_error ws e He) as ->.
  unfold render_data, render_system_info, render_analysis.
  cbn [truthy negb js_get sbind]. rewrite Hd, Ha. cbn [truthy negb js_get sbind].
  rewrite Hst, Hw. cbn [render_child sbind js_get_opt js_get].
  destruct ws as [| w rest]; [destruct Hin |].
  cbn [List.length String.eqb]. cbn -[map_child]. rewrite He. reflexivity.
Qed.

Lemma render_data_object_warning_witness :
  let an := [("status", JStr "warning"); ("warnings", JArr [JStr "a"; JObj [("msg", JStr "b")]])] in
  let kvs := [("diagnostics", JObj []); ("analysis", JObj an)] in
  assoc_lookup "diagnostics" kvs = Some (JObj []) /\
  assoc_lookup "analysis" kvs = Some (JObj an) /\
  render_data (JObj kvs) = RenderCrash (Error_ "Objects are not valid as a React child").
Proof.
  cbv zeta. split; [reflexivity |]. split; [reflexivity |].
  apply (render_data_object_warning _ [] [("status", JStr "warning"); ("warnings", JArr [JStr "a"; JObj [("msg", JStr "b")]])] [("msg", JStr "b")] [JStr "a"; JObj [("msg", JStr "b")]] "warning");
    cbn; auto.
Defined.

(** Non-empty warnings given as a string rather than an array crash the
    render: [.map] is not a function of a string. *)
Theorem render_data_string_warnings (kvs dg an : list (string * JVal)) (st w : string)
  (Hd : assoc_lookup "diagnostics" kvs = Some (JObj dg))
  (Ha : assoc_lookup "analysis" kvs = Some (JObj an))
  (Hst : assoc_lookup "status" an = Some (JStr st))
  (Hw : assoc_lookup "warnings" an = Some (JStr w))
  (Hne : w <> "") :
  render_data (JObj kvs) = RenderCrash (TypeError_ "data.analysis.warnings.map is not a function").
Proof.
  unfold render_data, render_system_info, render_analysis.
  cbn [truthy negb js_get sbind]. rewrite Hd, Ha. cbn [truthy negb js_get sbind].
  rewrite Hst, Hw. cbn [render_child sbind js_get_opt js_get String.eqb].
  destruct w as [| c w']; [contradiction |]. reflexivity.
Qed.

Lemma render_data_string_warnings_witness :
  let an := [("status", JStr "warning"); ("warnings", JStr "Disk low")] in
  let kvs := [("diagnostics", JObj []); ("analysis", JObj an)] in
  assoc_lookup "analysis" kvs = Some (JObj an) /\
  render_data (JObj kvs) = RenderCrash (TypeError_ "data.analysis.warnings.map is not a function").
Proof.
  cbv zeta. split; [reflexivity |].
  apply (render_data_string_warnings _ [] [("status", JStr "warning"); ("warnings", JStr "Disk low")] "warning" "Disk low"); [reflexivity .. | discriminate].
Defined.

(** ** The Alerts panel *)

Lemma alert_row_class_red (a : AlertItem) :
  is_red (alert_row_class a) = String.eqb (alert_type a) "critical".
Proof. unfold alert_row_class. destruct (String.eqb (alert_type a) "critical"); reflexivity. Qed.

(** The Alerts panel: the badge counts every alert, while at most the
    first three are listed, in order, each with its message and
    timestamp, and a row is red exactly when its alert is 'critical'. *)
Theorem alerts_panel_rows (alerts : list AlertItem) :
  fst (alerts_panel alerts) = Z_to_dec (Z.of_nat (List.length alerts)) /\
  List.length (snd (alerts_panel alerts)) = Nat.min 3 (List.length alerts) /\
  map (fun row => (snd (fst row), snd row)) (snd (alerts_panel alerts)) =
    map (fun a => (alert_text_msg a, alert_timestamp a)) (firstn 3 alerts) /\
  map (fun row => is_red (fst (fst row))) (snd (alerts_panel alerts)) =
    map (fun a => String.eqb (alert_type a) "critical") (firstn 3 alerts).
Proof.
  unfold alerts_panel. cbn [fst snd].
  split; [reflexivity |]. split; [| split].
  - rewrite length_map, length_firstn. reflexivity.
  - rewrite map_map. reflexivity.
  - rewrite map_map. apply map_ext. intros a. apply alert_row_class_red.
Qed.
